(** * tfjs-converter: the model load router of [src/index.ts]

    A shallow embedding of the three functions of [src/index.ts]
    ([loadFrozenModel], [getWeightsManifestUrl], [loadGraphModel]) and the
    properties of their routing logic.

    - JavaScript values are a small dynamic universe [JSValue]; TypeScript
      annotations and [as] casts are erased, as they are at run time.
      Strings come as primitives and as String objects; both answer the
      string methods and both satisfy [util.isString].
    - JavaScript strings are modelled as [string] (sequences of characters);
      the three string methods the file uses ([endsWith], [lastIndexOf],
      [substr]) follow ECMA-262.
    - The code runs in a monad [Run] that threads the log of observable
      events (the deprecation warning and the calls into the backend
      loaders) and may end in a thrown exception. *)

From Stdlib Require Import ZArith Arith Lia Bool Ascii String List.
Import ListNotations.

Local Open Scope string_scope.

(** ** JavaScript values *)

(** The kinds of value [src/index.ts] tells apart: [undefined], [null],
    booleans ([fromTFHub]), primitive strings (URLs), String objects
    ([new String(s)], which [util.isString] accepts and which answer the
    string methods), and plain objects held by reference ([io.IOHandler],
    [RequestInit], the [onProgress] function), which carry none of the
    string methods. *)
Inductive JSValue : Type :=
| JSUndefined
| JSNull
| JSBool (b : bool)
| JSString (s : string)
| JSStringObject (s : string)
| JSObject (ref : nat).

(** [v == null]: loose equality with [null] holds of [null] and [undefined]
    only. *)
Definition looseEqNull (v : JSValue) : bool :=
  match v with
  | JSUndefined | JSNull => true
  | _ => false
  end.

(** ToBoolean: every object is truthy, [new String("")] included. *)
Definition truthy (v : JSValue) : bool :=
  match v with
  | JSUndefined | JSNull => false
  | JSBool b => b
  | JSString s => negb (String.eqb s "")
  | JSStringObject _ => true
  | JSObject _ => true
  end.

(** [util.isString] of tfjs-core:
    [typeof value === 'string' || value instanceof String]. *)
Definition isString (v : JSValue) : bool :=
  match v with
  | JSString _ => true
  | JSStringObject _ => true
  | _ => false
  end.

(** The characters of a string value, primitive or wrapped; [None] for
    every other value. *)
Definition stringValue (v : JSValue) : option string :=
  match v with
  | JSString s => Some s
  | JSStringObject s => Some s
  | _ => None
  end.

Inductive JSError : Type :=
| Error (message : string)
| TypeError.

(** ** String methods (ECMA-262) *)

Module JSStr.

(** [String.prototype.endsWith(searchString)] with the end position left
    at its default, the length of the receiver. *)
Definition endsWith (s searchString : string) : bool :=
  let len := String.length s in
  let searchLength := String.length searchString in
  if (searchLength <=? len)%nat
  then String.eqb (substring (len - searchLength) searchLength s) searchString
  else false.

(** [String.prototype.lastIndexOf(searchString)]: the greatest index at
    which [searchString] occurs, [-1] when it does not occur.  The scan
    goes left to right and remembers the latest match. *)
Fixpoint lastIndexOf_from (searchString s : string) (i acc : Z) : Z :=
  let acc' := if prefix searchString s then i else acc in
  match s with
  | EmptyString => acc'
  | String _ s' => lastIndexOf_from searchString s' (i + 1) acc'
  end.

Definition lastIndexOf (s searchString : string) : Z :=
  lastIndexOf_from searchString s 0 (-1).

(** [String.prototype.substr(start, length)] (ECMA-262 B.2.2.1), both
    arguments integers. *)
Definition substr (s : string) (start len : Z) : string :=
  let size := Z.of_nat (String.length s) in
  let intStart :=
    if (start <? 0)%Z then Z.max (size + start) 0 else Z.min start size in
  let intLength := Z.min (Z.max len 0) size in
  let intEnd := Z.min (intStart + intLength) size in
  if (intEnd <=? intStart)%Z then ""
  else substring (Z.to_nat intStart) (Z.to_nat (intEnd - intStart)) s.

End JSStr.

(** ** Specification-side notions on strings *)

(** [s] ends in [suffix]. *)
Definition ends_in (suffix s : string) : Prop :=
  exists p, s = p ++ suffix.

(** The character [c] occurs in [s]. *)
Fixpoint occurs (c : ascii) (s : string) : bool :=
  match s with
  | EmptyString => false
  | String a s' => Ascii.eqb a c || occurs c s'
  end.

Definition slash : ascii := "/"%char.

(** The part of [s] before its final ['/']; empty when [s] has none. *)
Fixpoint dirname (s : string) : string :=
  match s with
  | EmptyString => EmptyString
  | String a s' => if occurs slash s' then String a (dirname s') else EmptyString
  end.

(** ** Observable events, outcomes and the [Run] monad *)

(** What a caller or a test double can observe of one call into the
    module: the deprecation notice and the calls into the three loaders
    imported from [./executor/frozen_model] and
    [./executor/frozen_model_json], each with its actual arguments. *)
Inductive Event : Type :=
| DeprecationWarn (msg : string)
| CallFrozenModelPB (modelUrl weightsManifestUrl requestInit onProgress : JSValue)
| CallFrozenModelJSON (modelUrl requestInit onProgress : JSValue)
| CallTfHubModuleJSON (modelUrl requestInit onProgress : JSValue).

(** A call either returns a value or throws, synchronously. *)
Inductive Outcome (A : Type) : Type :=
| Returned (a : A)
| Thrown (e : JSError).

Arguments Returned {A} a.
Arguments Thrown {A} e.

Definition Run (A : Type) : Type := list Event -> Outcome A * list Event.

Definition ret {A : Type} (a : A) : Run A := fun log => (Returned a, log).

Definition throw {A : Type} (e : JSError) : Run A := fun log => (Thrown e, log).

Definition bind {A B : Type} (m : Run A) (k : A -> Run B) : Run B :=
  fun log =>
    match m log with
    | (Returned a, log') => k a log'
    | (Thrown e, log') => (Thrown e, log')
    end.

(** Append one event to the log and return [a]. *)
Definition emit {A : Type} (e : Event) (a : A) : Run A :=
  fun log => (Returned a, (log ++ [e])%list).

Declare Scope run_scope.
Delimit Scope run_scope with run.
Notation "x <- m ;; k" := (bind m (fun x => k))
  (at level 61, m at next level, right associativity) : run_scope.
Notation "m ;;; k" := (bind m (fun _ => k))
  (at level 61, right associativity) : run_scope.

(** Method calls on a dynamically typed receiver: primitive strings and
    String objects answer [endsWith], [lastIndexOf] and [substr] with the
    methods of [String.prototype], applied to their characters; on any
    other receiver the call is a [TypeError]. *)
Definition method_endsWith (v : JSValue) (searchString : string) : Run bool :=
  match v with
  | JSString s | JSStringObject s => ret (JSStr.endsWith s searchString)
  | _ => throw TypeError
  end.

Definition method_lastIndexOf (v : JSValue) (searchString : string) : Run Z :=
  match v with
  | JSString s | JSStringObject s => ret (JSStr.lastIndexOf s searchString)
  | _ => throw TypeError
  end.

Definition method_substr (v : JSValue) (start len : Z) : Run string :=
  match v with
  | JSString s | JSStringObject s => ret (JSStr.substr s start len)
  | _ => throw TypeError
  end.

(** ** The imported names *)

(** Modelled from the spec: the constant [DEFAULT_MANIFEST_NAME] is imported
    from [./executor/frozen_model], which is not among the sources; the
    specification gives the fixed conventional filename as
    [weights_manifest.json]. *)
Definition DEFAULT_MANIFEST_NAME : string := "weights_manifest.json".

(** [deprecationWarn] of tfjs-core: an advisory message, recorded in the
    log. *)
Definition deprecationWarn (msg : string) : Run unit :=
  emit (DeprecationWarn msg) tt.

(** The three backend loaders.  They are opaque: each takes its arguments
    and hands back a promise. *)
Class Backends : Type := {
  Promise : Type;
  loadFrozenModelPB : JSValue -> JSValue -> JSValue -> JSValue -> Promise;
  loadFrozenModelJSON : JSValue -> JSValue -> JSValue -> Promise;
  loadTfHubModuleJSON : JSValue -> JSValue -> JSValue -> Promise
}.

(** [io.LoadOptions], the fields [src/index.ts] reads. *)
Record LoadOptions : Type := {
  fromTFHub : JSValue;
  requestInit : JSValue;
  onProgress : JSValue
}.

(** The object literal [{}]: every field reads as [undefined]. *)
Definition emptyOptions : LoadOptions :=
  {| fromTFHub := JSUndefined; requestInit := JSUndefined; onProgress := JSUndefined |}.

(** The [options] argument as passed: left out, [null], or an object. *)
Inductive OptionsArg : Type :=
| OptionsUndefined
| OptionsNull
| OptionsObject (o : LoadOptions).

(** The default parameter [options = {}] applies to [undefined] only. *)
Definition defaultParam (options : OptionsArg) : OptionsArg :=
  match options with
  | OptionsUndefined => OptionsObject emptyOptions
  | _ => options
  end.

(** [if (options == null) { options = {}; }] *)
Definition orEmpty (options : OptionsArg) : LoadOptions :=
  match options with
  | OptionsObject o => o
  | _ => emptyOptions
  end.

(** ** The functions of [src/index.ts] *)

Local Open Scope run_scope.

(** Lines 77-84. *)
Definition getWeightsManifestUrl (modelUrl : JSValue) : Run JSValue :=
  let weightsManifestUrl := JSUndefined in
  if negb (looseEqNull modelUrl) then
    i <- method_lastIndexOf modelUrl "/" ;;
    path <- method_substr modelUrl 0 i ;;
    ret (JSString ((path ++ "/") ++ DEFAULT_MANIFEST_NAME))
  else ret weightsManifestUrl.

Definition deprecation_message : string :=
  "tf.loadFrozenModel() is going away. " ++
  "Use tf.loadGraphModel() instead, and note the positional argument changes.".

Definition null_modelUrl_message : string :=
  "modelUrl in loadGraphModel() cannot be null. Please provide a url " ++
  "or an IOHandler that loads the model".

Section Router.

Context {B : Backends}.

(** Lines 55-75. *)
Definition loadFrozenModel
    (modelUrl weightsManifestUrl requestOption onProgress : JSValue)
  : Run Promise :=
  deprecationWarn deprecation_message ;;;
  isJson <- (if truthy modelUrl then method_endsWith modelUrl ".json"
             else ret false) ;;
  if isJson then
    emit (CallFrozenModelJSON modelUrl requestOption onProgress)
         (loadFrozenModelJSON modelUrl requestOption onProgress)
  else
    weightsManifestUrl <-
      (if negb (looseEqNull modelUrl) && looseEqNull weightsManifestUrl
       then getWeightsManifestUrl modelUrl
       else ret weightsManifestUrl) ;;
    emit (CallFrozenModelPB modelUrl weightsManifestUrl requestOption onProgress)
         (loadFrozenModelPB modelUrl weightsManifestUrl requestOption onProgress).

(** Lines 115-143. *)
Definition loadGraphModel (modelUrl : JSValue) (options : OptionsArg)
  : Run Promise :=
  let options := defaultParam options in
  if looseEqNull modelUrl then throw (Error null_modelUrl_message)
  else
    let options := orEmpty options in
    if truthy (fromTFHub options) then
      emit (CallTfHubModuleJSON modelUrl (requestInit options) (onProgress options))
           (loadTfHubModuleJSON modelUrl (requestInit options) (onProgress options))
    else
      isPb <- (if isString modelUrl then method_endsWith modelUrl ".pb"
               else ret false) ;;
      if isPb then
        weightsManifestUrl <- getWeightsManifestUrl modelUrl ;;
        emit (CallFrozenModelPB modelUrl weightsManifestUrl
                (requestInit options) (onProgress options))
             (loadFrozenModelPB modelUrl weightsManifestUrl
                (requestInit options) (onProgress options))
      else
        emit (CallFrozenModelJSON modelUrl (requestInit options) (onProgress options))
             (loadFrozenModelJSON modelUrl (requestInit options) (onProgress options)).

End Router.

(** A set of backends that does nothing but name the call it received: the
    promise is the record of the call. *)
Definition recordingBackends : Backends :=
  {| Promise := Event;
     loadFrozenModelPB := CallFrozenModelPB;
     loadFrozenModelJSON := CallFrozenModelJSON;
     loadTfHubModuleJSON := CallTfHubModuleJSON |}.

(** ** Reading the log *)

(** The locator a backend call received: its first argument.  The
    deprecation notice is not a backend call. *)
Definition callLocator (e : Event) : option JSValue :=
  match e with
  | DeprecationWarn _ => None
  | CallFrozenModelPB modelUrl _ _ _ => Some modelUrl
  | CallFrozenModelJSON modelUrl _ _ => Some modelUrl
  | CallTfHubModuleJSON modelUrl _ _ => Some modelUrl
  end.

(** The transport arguments a backend call received: [requestInit] and
    [onProgress]. *)
Definition callTransport (e : Event) : option (JSValue * JSValue) :=
  match e with
  | DeprecationWarn _ => None
  | CallFrozenModelPB _ _ requestInit onProgress => Some (requestInit, onProgress)
  | CallFrozenModelJSON _ requestInit onProgress => Some (requestInit, onProgress)
  | CallTfHubModuleJSON _ requestInit onProgress => Some (requestInit, onProgress)
  end.

Definition isDeprecationWarn (e : Event) : bool :=
  match e with
  | DeprecationWarn _ => true
  | _ => false
  end.

Definition isTfHubCall (e : Event) : bool :=
  match e with
  | CallTfHubModuleJSON _ _ _ => true
  | _ => false
  end.

(** The final character of a string, if it has one. *)
Fixpoint last_char (s : string) : option ascii :=
  match s with
  | EmptyString => None
  | String a s' =>
      match last_char s' with
      | None => Some a
      | Some c => Some c
      end
  end.

(** ** Lemmas on the string methods *)

Lemma length_append (s t : string) :
  String.length (s ++ t) = String.length s + String.length t.
Proof. induction s as [|a s IH]; simpl; [reflexivity | now rewrite IH]. Qed.

Lemma append_empty_r (s : string) : s ++ "" = s.
Proof. induction s as [|a s IH]; simpl; [reflexivity | now rewrite IH]. Qed.

Lemma append_assoc (s t u : string) : (s ++ t) ++ u = s ++ (t ++ u).
Proof. induction s as [|a s IH]; simpl; [reflexivity | now rewrite IH]. Qed.

Lemma substring_all (s : string) : substring 0 (String.length s) s = s.
Proof. induction s as [|a s IH]; simpl; [reflexivity | now rewrite IH]. Qed.

Lemma substring_prefix (p q : string) :
  substring 0 (String.length p) (p ++ q) = p.
Proof.
  induction p as [|a p IH]; simpl.
  - now destruct q.
  - now rewrite IH.
Qed.

Lemma substring_skip (p q : string) (m : nat) :
  substring (String.length p) m (p ++ q) = substring 0 m q.
Proof. induction p as [|a p IH]; simpl; [reflexivity | exact IH]. Qed.

Lemma substring_split (s : string) (n : nat) :
  n <= String.length s ->
  s = substring 0 n s ++ substring n (String.length s - n) s.
Proof.
  revert n; induction s as [|a s IH]; intros n Hn; simpl in *.
  - now destruct n.
  - destruct n as [|n]; simpl.
    + now rewrite substring_all.
    + f_equal. apply IH. lia.
Qed.

Lemma endsWith_app (p suffix : string) :
  JSStr.endsWith (p ++ suffix) suffix = true.
Proof.
  unfold JSStr.endsWith. rewrite length_append.
  replace (String.length suffix <=? String.length p + String.length suffix)%nat
    with true by (symmetry; apply Nat.leb_le; lia).
  replace (String.length p + String.length suffix - String.length suffix)
    with (String.length p) by lia.
  rewrite substring_skip, substring_all. apply String.eqb_refl.
Qed.

(** [endsWith] decides [ends_in]. *)
Lemma endsWith_iff (s suffix : string) :
  JSStr.endsWith s suffix = true <-> ends_in suffix s.
Proof.
  split.
  - unfold JSStr.endsWith.
    destruct (String.length suffix <=? String.length s)%nat eqn:Hle; [|discriminate].
    apply Nat.leb_le in Hle. intros Heq. apply String.eqb_eq in Heq.
    exists (substring 0 (String.length s - String.length suffix) s).
    pose proof (substring_split s (String.length s - String.length suffix)) as Hs.
    replace (String.length s - (String.length s - String.length suffix))
      with (String.length suffix) in Hs by lia.
    rewrite Heq in Hs. apply Hs. lia.
  - intros [p ->]. apply endsWith_app.
Qed.

Lemma endsWith_false_iff (s suffix : string) :
  JSStr.endsWith s suffix = false <-> ~ ends_in suffix s.
Proof.
  rewrite <- endsWith_iff.
  destruct (JSStr.endsWith s suffix); split; congruence.
Qed.

(** [occurs] decides occurrence as a factor. *)
Lemma occurs_iff (c : ascii) (s : string) :
  occurs c s = true <-> exists p r, s = p ++ String c r.
Proof.
  split.
  - induction s as [|a s IH]; simpl; [discriminate|].
    destruct (Ascii.eqb a c) eqn:Hac; simpl.
    + apply Ascii.eqb_eq in Hac; subst a. intros _. now exists "", s.
    + intros H. destruct (IH H) as (p & r & ->). now exists (String a p), r.
  - intros (p & r & ->). induction p as [|a p IH]; simpl.
    + now rewrite Ascii.eqb_refl.
    + rewrite IH. apply orb_true_r.
Qed.

Lemma occurs_app (c : ascii) (s t : string) :
  occurs c (s ++ t) = occurs c s || occurs c t.
Proof.
  induction s as [|a s IH]; simpl; [reflexivity|].
  now rewrite IH, orb_assoc.
Qed.

(** Every string with a ['/'] splits at its final ['/']. *)
Lemma last_slash_split (s : string) :
  occurs slash s = true ->
  exists p r, s = p ++ String slash r /\ occurs slash r = false.
Proof.
  induction s as [|a s IH]; simpl; [discriminate|].
  destruct (occurs slash s) eqn:Hs.
  - intros _. destruct (IH eq_refl) as (p & r & -> & Hr).
    now exists (String a p), r.
  - rewrite orb_false_r. intros Ha. apply Ascii.eqb_eq in Ha; subst a.
    now exists "", s.
Qed.

Lemma dirname_no_slash (s : string) :
  occurs slash s = false -> dirname s = "".
Proof.
  destruct s as [|a s]; simpl; [reflexivity|].
  intros H. apply orb_false_elim in H as [_ ->]. reflexivity.
Qed.

Lemma dirname_split (p r : string) :
  occurs slash r = false -> dirname (p ++ String slash r) = p.
Proof.
  intros Hr. induction p as [|a p IH]; simpl.
  - now rewrite Hr.
  - assert (Hs : occurs slash (p ++ String slash r) = true)
      by (apply occurs_iff; now exists p, r).
    now rewrite Hs, IH.
Qed.

Lemma prefix_empty (s : string) : prefix "" s = true.
Proof. now destruct s. Qed.

Lemma prefix_slash_cons (a : ascii) (s : string) :
  prefix "/" (String a s) = Ascii.eqb a slash.
Proof.
  cbn [prefix]. destruct (ascii_dec "/" a) as [<-|Hne].
  - now rewrite prefix_empty.
  - symmetry. apply Ascii.eqb_neq. intros ->. now apply Hne.
Qed.

Lemma lastIndexOf_from_cons (a : ascii) (s : string) (i acc : Z) :
  JSStr.lastIndexOf_from "/" (String a s) i acc =
  JSStr.lastIndexOf_from "/" s (i + 1) (if Ascii.eqb a slash then i else acc).
Proof.
  change (JSStr.lastIndexOf_from "/" (String a s) i acc)
    with (JSStr.lastIndexOf_from "/" s (i + 1)
            (if prefix "/" (String a s) then i else acc)).
  now rewrite prefix_slash_cons.
Qed.

Lemma lastIndexOf_from_no_slash (s : string) (i acc : Z) :
  occurs slash s = false -> JSStr.lastIndexOf_from "/" s i acc = acc.
Proof.
  revert i acc; induction s as [|a s IH]; intros i acc H.
  - reflexivity.
  - simpl in H. apply orb_false_elim in H as [Ha Hs].
    rewrite lastIndexOf_from_cons, Ha. now apply IH.
Qed.

Lemma lastIndexOf_from_split (p r : string) (i acc : Z) :
  occurs slash r = false ->
  JSStr.lastIndexOf_from "/" (p ++ String slash r) i acc =
  (i + Z.of_nat (String.length p))%Z.
Proof.
  intros Hr. revert i acc; induction p as [|a p IH]; intros i acc.
  - simpl append. rewrite lastIndexOf_from_cons.
    change (Ascii.eqb slash slash) with true.
    rewrite lastIndexOf_from_no_slash by assumption. simpl; lia.
  - simpl append. rewrite lastIndexOf_from_cons, IH. simpl String.length. lia.
Qed.

(** The index of the final ['/'] of [p ++ "/" ++ r] is the length of [p]. *)
Lemma lastIndexOf_split (p r : string) :
  occurs slash r = false ->
  JSStr.lastIndexOf (p ++ String slash r) "/" = Z.of_nat (String.length p).
Proof.
  intros Hr. unfold JSStr.lastIndexOf. now rewrite lastIndexOf_from_split.
Qed.

Lemma lastIndexOf_no_slash (s : string) :
  occurs slash s = false -> JSStr.lastIndexOf s "/" = (-1)%Z.
Proof. intros H. unfold JSStr.lastIndexOf. now apply lastIndexOf_from_no_slash. Qed.

Lemma substr_0 (s : string) (n : Z) :
  JSStr.substr s 0 n =
  let m := Z.min (Z.max n 0) (Z.of_nat (String.length s)) in
  if (m <=? 0)%Z then "" else substring 0 (Z.to_nat m) s.
Proof.
  unfold JSStr.substr. change (0 <? 0)%Z with false. cbv beta iota zeta.
  set (size := Z.of_nat (String.length s)).
  assert (Hsize : (0 <= size)%Z) by (subst size; lia).
  replace (Z.min 0 size) with 0%Z by lia.
  replace (Z.min (0 + Z.min (Z.max n 0) size) size)
    with (Z.min (Z.max n 0) size) by lia.
  now rewrite Z.sub_0_r.
Qed.

Lemma substr_0_negative (s : string) (n : Z) :
  (n <= 0)%Z -> JSStr.substr s 0 n = "".
Proof.
  intros Hn. rewrite substr_0. cbv zeta.
  destruct (Z.leb_spec (Z.min (Z.max n 0) (Z.of_nat (String.length s))) 0);
    [reflexivity | lia].
Qed.

Lemma substr_0_prefix (p q : string) :
  JSStr.substr (p ++ q) 0 (Z.of_nat (String.length p)) = p.
Proof.
  rewrite substr_0, length_append. cbv zeta.
  replace (Z.min (Z.max (Z.of_nat (String.length p)) 0)
             (Z.of_nat (String.length p + String.length q)))
    with (Z.of_nat (String.length p)) by lia.
  destruct (Z.leb_spec (Z.of_nat (String.length p)) 0) as [H|H].
  - destruct p; [reflexivity | simpl in H; lia].
  - rewrite Nat2Z.id. apply substring_prefix.
Qed.

(** The [path] of [getWeightsManifestUrl] is the [dirname] of its argument. *)
Lemma substr_lastIndexOf_dirname (s : string) :
  JSStr.substr s 0 (JSStr.lastIndexOf s "/") = dirname s.
Proof.
  destruct (occurs slash s) eqn:Hs.
  - destruct (last_slash_split s Hs) as (p & r & -> & Hr).
    rewrite lastIndexOf_split, dirname_split by assumption.
    apply substr_0_prefix.
  - rewrite lastIndexOf_no_slash, dirname_no_slash by assumption.
    apply substr_0_negative. lia.
Qed.

(** ** The Manifest URL Synthesizer, [getWeightsManifestUrl] *)

Lemma DEFAULT_MANIFEST_NAME_no_slash : occurs slash DEFAULT_MANIFEST_NAME = false.
Proof. reflexivity. Qed.

Lemma app_slash_name (p : string) :
  (p ++ "/") ++ DEFAULT_MANIFEST_NAME = p ++ String slash DEFAULT_MANIFEST_NAME.
Proof. now rewrite append_assoc. Qed.

(** On a string the synthesizer returns [dirname] of it, ['/'] and the
    manifest name, and leaves the log alone. *)
Lemma getWeightsManifestUrl_string (s : string) (log : list Event) :
  getWeightsManifestUrl (JSString s) log =
  (Returned (JSString (dirname s ++ String slash DEFAULT_MANIFEST_NAME)), log).
Proof.
  cbv [getWeightsManifestUrl bind ret method_lastIndexOf method_substr
       looseEqNull negb].
  now rewrite substr_lastIndexOf_dirname, app_slash_name.
Qed.

(** A String object is read through the same methods as a primitive
    string, and the result is a primitive string. *)
Lemma getWeightsManifestUrl_stringValue
    (v : JSValue) (s : string) (log : list Event) :
  stringValue v = Some s ->
  getWeightsManifestUrl v log =
  (Returned (JSString (dirname s ++ String slash DEFAULT_MANIFEST_NAME)), log).
Proof.
  intros Hv. rewrite <- (getWeightsManifestUrl_string s log).
  destruct v; try discriminate Hv; injection Hv as ->; reflexivity.
Qed.

Lemma getWeightsManifestUrl_nullish (v : JSValue) (log : list Event) :
  looseEqNull v = true ->
  getWeightsManifestUrl v log = (Returned JSUndefined, log).
Proof. intros H. unfold getWeightsManifestUrl. now rewrite H. Qed.

Lemma getWeightsManifestUrl_log (v : JSValue) (log : list Event) :
  getWeightsManifestUrl v log = (fst (getWeightsManifestUrl v []), log).
Proof.
  destruct v; reflexivity.
Qed.

Lemma orEmpty_defaultParam (options : OptionsArg) :
  orEmpty (defaultParam options) = orEmpty options.
Proof. now destruct options. Qed.

Local Open Scope run_scope.

(** C7 (as amended).  The Manifest URL Synthesizer: for [null] it returns
    [undefined] and raises nothing; for every string it returns the part of
    the string before its final ['/'], then ['/'], then the manifest name;
    and for a string without ['/'] the result is ['/'] followed by the
    manifest name. *)
Theorem getWeightsManifestUrl_spec :
  (forall log, getWeightsManifestUrl JSNull log = (Returned JSUndefined, log)) /\
  (forall s log,
      getWeightsManifestUrl (JSString s) log =
      (Returned (JSString (dirname s ++ "/" ++ DEFAULT_MANIFEST_NAME)), log)) /\
  (forall p r log,
      occurs slash r = false ->
      getWeightsManifestUrl (JSString (p ++ "/" ++ r)) log =
      (Returned (JSString (p ++ "/" ++ DEFAULT_MANIFEST_NAME)), log)) /\
  (forall s log,
      occurs slash s = false ->
      getWeightsManifestUrl (JSString s) log =
      (Returned (JSString ("/" ++ DEFAULT_MANIFEST_NAME)), log)).
Proof.
  repeat split.
  - intros s log. apply getWeightsManifestUrl_string.
  - intros p r log Hr. rewrite getWeightsManifestUrl_string.
    change (p ++ "/" ++ r) with (p ++ String slash r).
    now rewrite dirname_split.
  - intros s log Hs. rewrite getWeightsManifestUrl_string.
    now rewrite dirname_no_slash.
Qed.

(** C8.  The Manifest URL Synthesizer is deterministic and idempotent: its
    result does not depend on the state it is called in, it leaves that
    state as it found it, and applied to its own output it yields that
    output again. *)
Theorem getWeightsManifestUrl_pure_idempotent :
  (forall v log1 log2,
      fst (getWeightsManifestUrl v log1) = fst (getWeightsManifestUrl v log2)) /\
  (forall v log, snd (getWeightsManifestUrl v log) = log) /\
  (forall v log,
      (x <- getWeightsManifestUrl v ;; getWeightsManifestUrl x) log =
      getWeightsManifestUrl v log).
Proof.
  repeat split.
  - intros v log1 log2.
    now rewrite (getWeightsManifestUrl_log v log1),
                (getWeightsManifestUrl_log v log2).
  - intros v log. now rewrite getWeightsManifestUrl_log.
  - intros v log. unfold bind.
    destruct v as [| |b|s|s|r]; try reflexivity.
    + rewrite !getWeightsManifestUrl_string.
      now rewrite dirname_split by exact DEFAULT_MANIFEST_NAME_no_slash.
    + rewrite (getWeightsManifestUrl_stringValue (JSStringObject s) s log eq_refl).
      rewrite getWeightsManifestUrl_string.
      now rewrite dirname_split by exact DEFAULT_MANIFEST_NAME_no_slash.
Qed.

(** ** The router: [loadGraphModel] and [loadFrozenModel] *)

Section RouterProperties.

Context {B : Backends}.

(** C1.  [loadGraphModel] called with a [null] locator throws the error
    naming [modelUrl], whatever the options, and the log is as it was: no
    backend has been called. *)
Theorem loadGraphModel_null_throws (options : OptionsArg) (log : list Event) :
  loadGraphModel JSNull options log =
  (Thrown (Error "modelUrl in loadGraphModel() cannot be null. Please provide a url or an IOHandler that loads the model"),
   log).
Proof. reflexivity. Qed.

(** C2.  With a non-null locator and an options object whose [fromTFHub]
    is truthy, [loadGraphModel] calls the TF-Hub loader with the locator,
    [options.requestInit] and [options.onProgress], whatever the locator
    ends in, and calls nothing else. *)
Theorem loadGraphModel_fromTFHub
    (modelUrl : JSValue) (o : LoadOptions) (log : list Event) :
  looseEqNull modelUrl = false ->
  truthy (fromTFHub o) = true ->
  loadGraphModel modelUrl (OptionsObject o) log =
  (Returned (loadTfHubModuleJSON modelUrl (requestInit o) (onProgress o)),
   (log ++ [CallTfHubModuleJSON modelUrl (requestInit o) (onProgress o)])%list).
Proof.
  intros Hnn Hhub. unfold loadGraphModel.
  cbn [defaultParam orEmpty]. now rewrite Hnn, Hhub.
Qed.

(** C3.  For a string [S] ending in [.pb] and [fromTFHub] falsy,
    [loadGraphModel] calls the binary loader with [S] and the manifest URL
    [dirname S ++ "/weights_manifest.json"]. *)
Theorem loadGraphModel_pb
    (S : string) (options : OptionsArg) (log : list Event) :
  ends_in ".pb" S ->
  truthy (fromTFHub (orEmpty options)) = false ->
  let o := orEmpty options in
  let manifest := JSString (dirname S ++ "/weights_manifest.json") in
  loadGraphModel (JSString S) options log =
  (Returned (loadFrozenModelPB (JSString S) manifest (requestInit o) (onProgress o)),
   (log ++ [CallFrozenModelPB (JSString S) manifest
              (requestInit o) (onProgress o)])%list).
Proof.
  intros Hpb Hhub o manifest. subst o manifest. apply endsWith_iff in Hpb.
  unfold loadGraphModel. rewrite orEmpty_defaultParam.
  cbn [looseEqNull isString method_endsWith]. rewrite Hhub.
  unfold bind at 1. unfold ret at 1. rewrite Hpb.
  unfold bind. now rewrite getWeightsManifestUrl_string.
Qed.

(** C4.  For a string [S] ending neither in [.json] nor in [.pb] and
    [fromTFHub] falsy, [loadGraphModel] calls the JSON loader with [S]
    unchanged and with the [requestInit] and [onProgress] of the options
    object the caller passed ([undefined] for both when the options are
    left out or [null]), and calls nothing else. *)
Theorem loadGraphModel_default (S : string) (log : list Event) :
  ~ ends_in ".json" S ->
  ~ ends_in ".pb" S ->
  (forall o : LoadOptions,
      truthy (fromTFHub o) = false ->
      loadGraphModel (JSString S) (OptionsObject o) log =
      (Returned (loadFrozenModelJSON (JSString S) (requestInit o) (onProgress o)),
       (log ++ [CallFrozenModelJSON (JSString S)
                  (requestInit o) (onProgress o)])%list)) /\
  (forall options : OptionsArg,
      options = OptionsUndefined \/ options = OptionsNull ->
      loadGraphModel (JSString S) options log =
      (Returned (loadFrozenModelJSON (JSString S) JSUndefined JSUndefined),
       (log ++ [CallFrozenModelJSON (JSString S) JSUndefined JSUndefined])%list)).
Proof.
  intros _ Hpb. apply endsWith_false_iff in Hpb. split.
  - intros o Hhub. unfold loadGraphModel.
    cbn [defaultParam orEmpty looseEqNull isString method_endsWith].
    rewrite Hhub. unfold bind, ret. now rewrite Hpb.
  - intros options [-> | ->]; unfold loadGraphModel;
      cbn [defaultParam orEmpty emptyOptions fromTFHub requestInit onProgress
           truthy looseEqNull isString method_endsWith];
      unfold bind, ret; now rewrite Hpb.
Qed.

(** C10.  The empty string passes the null check of [loadGraphModel]: with
    [fromTFHub] falsy nothing is thrown and the JSON loader is called with
    the empty string unchanged. *)
Theorem loadGraphModel_empty_string (options : OptionsArg) (log : list Event) :
  truthy (fromTFHub (orEmpty options)) = false ->
  let o := orEmpty options in
  loadGraphModel (JSString "") options log =
  (Returned (loadFrozenModelJSON (JSString "") (requestInit o) (onProgress o)),
   (log ++ [CallFrozenModelJSON (JSString "") (requestInit o) (onProgress o)])%list).
Proof.
  intros Hhub o. subst o. unfold loadGraphModel. rewrite orEmpty_defaultParam.
  cbn [looseEqNull]. now rewrite Hhub.
Qed.

(** C5.  For a non-empty string locator ending in [.json], the legacy
    entry point [loadFrozenModel] calls the JSON loader with the locator,
    [requestOption] and [onProgress], whatever [weightsManifestUrl] is;
    the binary loader is not called, and the value returned is the JSON
    loader's promise itself. *)
Theorem loadFrozenModel_json
    (S : string) (weightsManifestUrl requestOption onProgress : JSValue)
    (log : list Event) :
  S <> "" ->
  ends_in ".json" S ->
  loadFrozenModel (JSString S) weightsManifestUrl requestOption onProgress log =
  (Returned (loadFrozenModelJSON (JSString S) requestOption onProgress),
   (log ++ [DeprecationWarn deprecation_message;
            CallFrozenModelJSON (JSString S) requestOption onProgress])%list).
Proof.
  intros Hne Hjson. apply String.eqb_neq in Hne. apply endsWith_iff in Hjson.
  cbv [loadFrozenModel deprecationWarn bind emit ret truthy method_endsWith].
  rewrite Hne, Hjson. cbv [negb]. now rewrite <- List.app_assoc.
Qed.

(** C6.  For a string locator not ending in [.json] and
    [weightsManifestUrl] left out ([null] or [undefined]),
    [loadFrozenModel] takes the manifest URL that [getWeightsManifestUrl]
    returns for the locator and calls the binary loader with the locator,
    that URL, [requestOption] and [onProgress]. *)
Theorem loadFrozenModel_synthesizes_manifest
    (S : string) (weightsManifestUrl requestOption onProgress : JSValue)
    (log : list Event) :
  ~ ends_in ".json" S ->
  looseEqNull weightsManifestUrl = true ->
  exists synthesized : JSValue,
    (forall log', getWeightsManifestUrl (JSString S) log' =
                  (Returned synthesized, log')) /\
    synthesized = JSString (dirname S ++ "/" ++ DEFAULT_MANIFEST_NAME) /\
    loadFrozenModel (JSString S) weightsManifestUrl requestOption onProgress log =
    (Returned (loadFrozenModelPB (JSString S) synthesized requestOption onProgress),
     (log ++ [DeprecationWarn deprecation_message;
              CallFrozenModelPB (JSString S) synthesized
                requestOption onProgress])%list).
Proof.
  intros Hjson Hw. apply endsWith_false_iff in Hjson.
  exists (JSString (dirname S ++ String slash DEFAULT_MANIFEST_NAME)).
  split; [|split].
  - intros log'. apply getWeightsManifestUrl_string.
  - reflexivity.
  - cbv [loadFrozenModel deprecationWarn bind emit ret truthy method_endsWith].
    rewrite Hjson, Hw. change (looseEqNull (JSString S)) with false.
    destruct (String.eqb S ""); cbv [negb andb];
      now rewrite getWeightsManifestUrl_string, <- List.app_assoc.
Qed.

(** C9 (as amended).  Called with a [null] locator, [loadFrozenModel]
    throws nothing and calls the binary loader with the locator and the
    [weightsManifestUrl] argument exactly as the caller passed it:
    [getWeightsManifestUrl] is not applied. *)
Theorem loadFrozenModel_null_forwards_manifest
    (weightsManifestUrl requestOption onProgress : JSValue) (log : list Event) :
  loadFrozenModel JSNull weightsManifestUrl requestOption onProgress log =
  (Returned (loadFrozenModelPB JSNull weightsManifestUrl requestOption onProgress),
   (log ++ [DeprecationWarn deprecation_message;
            CallFrozenModelPB JSNull weightsManifestUrl
              requestOption onProgress])%list).
Proof.
  cbv [loadFrozenModel deprecationWarn bind emit ret truthy looseEqNull
       negb andb].
  now rewrite <- List.app_assoc.
Qed.

End RouterProperties.

(** ** Instances on concrete calls *)

Lemma getWeightsManifestUrl_spec_witness :
  occurs slash "model.pb" = false /\
  getWeightsManifestUrl (JSString "https://host/dir/model.pb") [] =
  (Returned (JSString "https://host/dir/weights_manifest.json"), []) /\
  getWeightsManifestUrl (JSString "model.pb") [] =
  (Returned (JSString "/weights_manifest.json"), []).
Proof.
  split; [reflexivity|]. split.
  - apply (proj1 (proj2 (proj2 getWeightsManifestUrl_spec))
             "https://host/dir" "model.pb" []).
    reflexivity.
  - apply (proj2 (proj2 (proj2 getWeightsManifestUrl_spec)) "model.pb" []).
    reflexivity.
Defined.

(** [getWeightsManifestUrl(null)] is [undefined], which is not [null]. *)
Lemma getWeightsManifestUrl_null_is_not_null :
  fst (getWeightsManifestUrl JSNull []) = Returned JSUndefined /\
  fst (getWeightsManifestUrl JSNull []) <> Returned JSNull.
Proof. split; [reflexivity | discriminate]. Qed.

Lemma loadGraphModel_fromTFHub_witness :
  let modelUrl := JSString "https://tfhub.dev/google/model.pb" in
  let o := {| fromTFHub := JSBool true;
              requestInit := JSObject 1;
              onProgress := JSObject 2 |} in
  looseEqNull modelUrl = false /\
  truthy (fromTFHub o) = true /\
  loadGraphModel (B := recordingBackends) modelUrl (OptionsObject o) [] =
  (Returned (CallTfHubModuleJSON modelUrl (JSObject 1) (JSObject 2)),
   [CallTfHubModuleJSON modelUrl (JSObject 1) (JSObject 2)]).
Proof.
  cbv zeta. split; [reflexivity|]. split; [reflexivity|].
  apply (loadGraphModel_fromTFHub (B := recordingBackends)); reflexivity.
Defined.

Lemma loadGraphModel_pb_witness :
  let S := "https://host/dir/model.pb" in
  let manifest := JSString "https://host/dir/weights_manifest.json" in
  ends_in ".pb" S /\
  truthy (fromTFHub (orEmpty OptionsUndefined)) = false /\
  loadGraphModel (B := recordingBackends) (JSString S) OptionsUndefined [] =
  (Returned (CallFrozenModelPB (JSString S) manifest JSUndefined JSUndefined),
   [CallFrozenModelPB (JSString S) manifest JSUndefined JSUndefined]).
Proof.
  cbv zeta.
  assert (H : ends_in ".pb" "https://host/dir/model.pb")
    by (exists "https://host/dir/model"; reflexivity).
  split; [exact H|]. split; [reflexivity|].
  apply (loadGraphModel_pb (B := recordingBackends)
           "https://host/dir/model.pb" OptionsUndefined [] H).
  reflexivity.
Defined.

Lemma loadGraphModel_default_witness :
  let S := "indexeddb://my-model" in
  let o := {| fromTFHub := JSBool false;
              requestInit := JSObject 1;
              onProgress := JSObject 2 |} in
  ~ ends_in ".json" S /\
  ~ ends_in ".pb" S /\
  truthy (fromTFHub o) = false /\
  loadGraphModel (B := recordingBackends) (JSString S) (OptionsObject o) [] =
  (Returned (CallFrozenModelJSON (JSString S) (JSObject 1) (JSObject 2)),
   [CallFrozenModelJSON (JSString S) (JSObject 1) (JSObject 2)]) /\
  loadGraphModel (B := recordingBackends) (JSString S) OptionsNull [] =
  (Returned (CallFrozenModelJSON (JSString S) JSUndefined JSUndefined),
   [CallFrozenModelJSON (JSString S) JSUndefined JSUndefined]).
Proof.
  cbv zeta.
  assert (Hjson : ~ ends_in ".json" "indexeddb://my-model")
    by (apply endsWith_false_iff; reflexivity).
  assert (Hpb : ~ ends_in ".pb" "indexeddb://my-model")
    by (apply endsWith_false_iff; reflexivity).
  split; [exact Hjson|]. split; [exact Hpb|]. split; [reflexivity|]. split.
  - apply (proj1 (loadGraphModel_default (B := recordingBackends)
                    "indexeddb://my-model" [] Hjson Hpb)
             {| fromTFHub := JSBool false;
                requestInit := JSObject 1;
                onProgress := JSObject 2 |}).
    reflexivity.
  - apply (proj2 (loadGraphModel_default (B := recordingBackends)
                    "indexeddb://my-model" [] Hjson Hpb) OptionsNull).
    right; reflexivity.
Defined.

Lemma loadGraphModel_empty_string_witness :
  let o := {| fromTFHub := JSBool false;
              requestInit := JSObject 1;
              onProgress := JSUndefined |} in
  truthy (fromTFHub (orEmpty (OptionsObject o))) = false /\
  loadGraphModel (B := recordingBackends) (JSString "") (OptionsObject o) [] =
  (Returned (CallFrozenModelJSON (JSString "") (JSObject 1) JSUndefined),
   [CallFrozenModelJSON (JSString "") (JSObject 1) JSUndefined]).
Proof.
  cbv zeta. split; [reflexivity|].
  apply (loadGraphModel_empty_string (B := recordingBackends)); reflexivity.
Defined.

Lemma loadFrozenModel_json_witness :
  let S := "model.json" in
  let given := JSString "https://host/dir/weights_manifest.json" in
  S <> "" /\
  ends_in ".json" S /\
  loadFrozenModel (B := recordingBackends) (JSString S) given
    (JSObject 1) (JSObject 2) [] =
  (Returned (CallFrozenModelJSON (JSString S) (JSObject 1) (JSObject 2)),
   [DeprecationWarn deprecation_message;
    CallFrozenModelJSON (JSString S) (JSObject 1) (JSObject 2)]).
Proof.
  cbv zeta.
  assert (Hne : "model.json" <> "") by discriminate.
  assert (Hjson : ends_in ".json" "model.json") by (exists "model"; reflexivity).
  split; [exact Hne|]. split; [exact Hjson|].
  apply (loadFrozenModel_json (B := recordingBackends) "model.json"
           (JSString "https://host/dir/weights_manifest.json")
           (JSObject 1) (JSObject 2) [] Hne Hjson).
Defined.

Lemma loadFrozenModel_synthesizes_manifest_witness :
  let S := "model.pb" in
  ~ ends_in ".json" S /\
  looseEqNull JSUndefined = true /\
  exists synthesized : JSValue,
    (forall log', getWeightsManifestUrl (JSString S) log' =
                  (Returned synthesized, log')) /\
    synthesized = JSString "/weights_manifest.json" /\
    loadFrozenModel (B := recordingBackends) (JSString S) JSUndefined
      JSUndefined JSUndefined [] =
    (Returned (CallFrozenModelPB (JSString S) synthesized JSUndefined JSUndefined),
     [DeprecationWarn deprecation_message;
      CallFrozenModelPB (JSString S) synthesized JSUndefined JSUndefined]).
Proof.
  cbv zeta.
  assert (Hjson : ~ ends_in ".json" "model.pb")
    by (apply endsWith_false_iff; reflexivity).
  split; [exact Hjson|]. split; [reflexivity|].
  exact (loadFrozenModel_synthesizes_manifest (B := recordingBackends)
           "model.pb" JSUndefined JSUndefined JSUndefined [] Hjson eq_refl).
Defined.

(** Called with a [null] locator and a manifest URL of the caller's,
    [loadFrozenModel] forwards the caller's URL: the URL the binary loader
    receives is not one derived from the [null] base. *)
Lemma loadFrozenModel_null_manifest_not_derived :
  let given := JSString "https://host/dir/manifest.json" in
  ~ (exists derived : JSValue,
        getWeightsManifestUrl JSNull [] = (Returned derived, []) /\
        snd (loadFrozenModel (B := recordingBackends) JSNull given
               JSUndefined JSUndefined []) =
        [DeprecationWarn deprecation_message;
         CallFrozenModelPB JSNull derived JSUndefined JSUndefined]).
Proof.
  intros given (derived & Hderived & Hcall).
  vm_compute in Hderived. vm_compute in Hcall.
  injection Hderived as <-. discriminate Hcall.
Qed.

(** ** Further properties of the router *)

Lemma last_char_cons (a : ascii) (s : string) : last_char (String a s) <> None.
Proof. simpl. now destruct (last_char s). Qed.

Lemma last_char_app (p : string) (a : ascii) (t : string) :
  last_char (p ++ String a t) = last_char (String a t).
Proof.
  induction p as [|b p IH]; [reflexivity|].
  change (last_char (String b p ++ String a t))
    with (match last_char (p ++ String a t) with
          | None => Some b
          | Some c => Some c
          end).
  rewrite IH. pose proof (last_char_cons a t) as H.
  now destruct (last_char (String a t)).
Qed.

(** Two suffixes with different final characters exclude each other. *)
Lemma ends_in_exclusive (a b : ascii) (t u s : string) :
  last_char (String a t) <> last_char (String b u) ->
  ends_in (String a t) s -> ~ ends_in (String b u) s.
Proof.
  intros Hne [p ->] [q Hq]. apply Hne.
  rewrite <- (last_char_app p a t), <- (last_char_app q b u). now rewrite Hq.
Qed.

Lemma pb_not_json (s : string) : ends_in ".pb" s -> JSStr.endsWith s ".json" = false.
Proof.
  intros H. apply endsWith_false_iff. revert H.
  apply ends_in_exclusive. discriminate.
Qed.

Lemma json_not_pb (s : string) : ends_in ".json" s -> JSStr.endsWith s ".pb" = false.
Proof.
  intros H. apply endsWith_false_iff. revert H.
  apply ends_in_exclusive. discriminate.
Qed.

Section RouterTables.

Context {B : Backends}.

(** The decision table of [loadGraphModel] on a locator that passes the
    null check. *)
Lemma loadGraphModel_table
    (modelUrl : JSValue) (options : OptionsArg) (log : list Event) :
  looseEqNull modelUrl = false ->
  loadGraphModel modelUrl options log =
  let o := orEmpty options in
  let json :=
    (Returned (loadFrozenModelJSON modelUrl (requestInit o) (onProgress o)),
     (log ++ [CallFrozenModelJSON modelUrl (requestInit o) (onProgress o)])%list) in
  if truthy (fromTFHub o) then
    (Returned (loadTfHubModuleJSON modelUrl (requestInit o) (onProgress o)),
     (log ++ [CallTfHubModuleJSON modelUrl (requestInit o) (onProgress o)])%list)
  else
    match stringValue modelUrl with
    | Some url =>
        if JSStr.endsWith url ".pb" then
          let manifest := JSString (dirname url ++ String slash DEFAULT_MANIFEST_NAME) in
          (Returned (loadFrozenModelPB modelUrl manifest (requestInit o) (onProgress o)),
           (log ++ [CallFrozenModelPB modelUrl manifest
                      (requestInit o) (onProgress o)])%list)
        else json
    | None => json
    end.
Proof.
  intros Hnn. unfold loadGraphModel. rewrite orEmpty_defaultParam, Hnn.
  cbv zeta. destruct (truthy (fromTFHub (orEmpty options))); [reflexivity|].
  destruct modelUrl as [| |b|url|url|r]; try reflexivity.
  - cbv [isString method_endsWith bind ret stringValue].
    destruct (JSStr.endsWith url ".pb"); [|reflexivity].
    now rewrite getWeightsManifestUrl_string.
  - cbv [isString method_endsWith bind ret stringValue].
    destruct (JSStr.endsWith url ".pb"); [|reflexivity].
    now rewrite (getWeightsManifestUrl_stringValue (JSStringObject url) url _ eq_refl).
Qed.

(** The decision table of [loadFrozenModel] on a string locator. *)
Lemma loadFrozenModel_table
    (S : string) (weightsManifestUrl requestOption onProgress : JSValue)
    (log : list Event) :
  loadFrozenModel (JSString S) weightsManifestUrl requestOption onProgress log =
  if JSStr.endsWith S ".json" then
    (Returned (loadFrozenModelJSON (JSString S) requestOption onProgress),
     (log ++ [DeprecationWarn deprecation_message;
              CallFrozenModelJSON (JSString S) requestOption onProgress])%list)
  else
    let manifest :=
      if looseEqNull weightsManifestUrl
      then JSString (dirname S ++ String slash DEFAULT_MANIFEST_NAME)
      else weightsManifestUrl in
    (Returned (loadFrozenModelPB (JSString S) manifest requestOption onProgress),
     (log ++ [DeprecationWarn deprecation_message;
              CallFrozenModelPB (JSString S) manifest requestOption onProgress])%list).
Proof.
  cbv [loadFrozenModel deprecationWarn bind emit ret truthy method_endsWith].
  change (looseEqNull (JSString S)) with false. cbv [negb andb].
  destruct (String.eqb_spec S "") as [->|Hne].
  - change (JSStr.endsWith "" ".json") with false. cbv iota.
    destruct (looseEqNull weightsManifestUrl);
      now rewrite ?getWeightsManifestUrl_string, <- List.app_assoc.
  - destruct (JSStr.endsWith S ".json"); [now rewrite <- List.app_assoc|].
    destruct (looseEqNull weightsManifestUrl);
      now rewrite ?getWeightsManifestUrl_string, <- List.app_assoc.
Qed.

(** The same table holds of a String object; being an object it is truthy
    even when empty, and the empty string does not end in [.json]. *)
Lemma loadFrozenModel_table_object
    (S : string) (weightsManifestUrl requestOption onProgress : JSValue)
    (log : list Event) :
  loadFrozenModel (JSStringObject S) weightsManifestUrl requestOption onProgress log =
  if JSStr.endsWith S ".json" then
    (Returned (loadFrozenModelJSON (JSStringObject S) requestOption onProgress),
     (log ++ [DeprecationWarn deprecation_message;
              CallFrozenModelJSON (JSStringObject S) requestOption onProgress])%list)
  else
    let manifest :=
      if looseEqNull weightsManifestUrl
      then JSString (dirname S ++ String slash DEFAULT_MANIFEST_NAME)
      else weightsManifestUrl in
    (Returned (loadFrozenModelPB (JSStringObject S) manifest requestOption onProgress),
     (log ++ [DeprecationWarn deprecation_message;
              CallFrozenModelPB (JSStringObject S) manifest
                requestOption onProgress])%list).
Proof.
  cbv [loadFrozenModel deprecationWarn bind emit ret truthy method_endsWith].
  change (looseEqNull (JSStringObject S)) with false. cbv [negb andb].
  destruct (JSStr.endsWith S ".json"); [now rewrite <- List.app_assoc|].
  destruct (looseEqNull weightsManifestUrl).
  - rewrite (getWeightsManifestUrl_stringValue (JSStringObject S) S _ eq_refl).
    now rewrite <- List.app_assoc.
  - now rewrite <- List.app_assoc.
Qed.

End RouterTables.

(** X8.  For every string locator the synthesized manifest URL lies in the
    directory of the locator: it ends in ['/'] and the manifest name, and
    the part before its final ['/'] is that of the locator. *)
Theorem getWeightsManifestUrl_same_directory (s : string) (log : list Event) :
  exists manifest : string,
    getWeightsManifestUrl (JSString s) log = (Returned (JSString manifest), log) /\
    ends_in ("/" ++ DEFAULT_MANIFEST_NAME) manifest /\
    dirname manifest = dirname s.
Proof.
  exists (dirname s ++ String slash DEFAULT_MANIFEST_NAME). split; [|split].
  - apply getWeightsManifestUrl_string.
  - now exists (dirname s).
  - apply dirname_split, DEFAULT_MANIFEST_NAME_no_slash.
Qed.

(** X9.  The file name of the locator plays no part: two string locators
    get the same manifest URL exactly when the parts before their final
    ['/'] are the same. *)
Theorem getWeightsManifestUrl_eq_iff_dirname (s1 s2 : string) (log : list Event) :
  getWeightsManifestUrl (JSString s1) log = getWeightsManifestUrl (JSString s2) log
  <-> dirname s1 = dirname s2.
Proof.
  rewrite !getWeightsManifestUrl_string. split.
  - intros H. injection H as H.
    rewrite <- (dirname_split (dirname s1) DEFAULT_MANIFEST_NAME
                  DEFAULT_MANIFEST_NAME_no_slash).
    rewrite <- (dirname_split (dirname s2) DEFAULT_MANIFEST_NAME
                  DEFAULT_MANIFEST_NAME_no_slash).
    now rewrite H.
  - now intros ->.
Qed.

Section RouterCoverage.

Context {B : Backends}.

(** X1.  [loadGraphModel] throws exactly when the locator is [null] or
    [undefined]; what it throws is then the error naming [modelUrl], and
    the log is untouched.  No other argument makes it throw. *)
Theorem loadGraphModel_throws_iff
    (modelUrl : JSValue) (options : OptionsArg) (log log' : list Event)
    (e : JSError) :
  loadGraphModel modelUrl options log = (Thrown e, log') <->
  looseEqNull modelUrl = true /\ e = Error null_modelUrl_message /\ log' = log.
Proof.
  destruct (looseEqNull modelUrl) eqn:Hnn.
  - unfold loadGraphModel. rewrite Hnn. unfold throw. split.
    + intros H. injection H as <- <-. auto.
    + now intros (_ & -> & ->).
  - rewrite loadGraphModel_table by assumption. cbv zeta. split.
    + destruct (truthy (fromTFHub (orEmpty options))); [discriminate|].
      destruct (stringValue modelUrl) as [url|]; [|discriminate].
      destruct (JSStr.endsWith url ".pb"); discriminate.
    + intros (H & _). discriminate H.
Qed.

(** X2.  On a locator that is neither [null] nor [undefined],
    [loadGraphModel] returns and adds exactly one event to the log: a
    backend call whose first argument is the locator as given and whose
    transport arguments are the [requestInit] and [onProgress] of the
    options object the caller passed, and [undefined] for both when the
    options are left out or [null]. *)
Theorem loadGraphModel_one_backend_call
    (modelUrl : JSValue) (log : list Event) :
  looseEqNull modelUrl = false ->
  (forall o : LoadOptions,
      exists (p : Promise) (e : Event),
        loadGraphModel modelUrl (OptionsObject o) log =
        (Returned p, (log ++ [e])%list) /\
        callLocator e = Some modelUrl /\
        callTransport e = Some (requestInit o, onProgress o)) /\
  (forall options : OptionsArg,
      options = OptionsUndefined \/ options = OptionsNull ->
      exists (p : Promise) (e : Event),
        loadGraphModel modelUrl options log = (Returned p, (log ++ [e])%list) /\
        callLocator e = Some modelUrl /\
        callTransport e = Some (JSUndefined, JSUndefined)).
Proof.
  intros Hnn.
  assert (Hall : forall options,
             exists (p : Promise) (e : Event),
               loadGraphModel modelUrl options log =
               (Returned p, (log ++ [e])%list) /\
               callLocator e = Some modelUrl /\
               callTransport e =
               Some (requestInit (orEmpty options), onProgress (orEmpty options))).
  { intros options. rewrite loadGraphModel_table by assumption. cbv zeta.
    destruct (truthy (fromTFHub (orEmpty options)));
      [do 2 eexists; split; [reflexivity | split; reflexivity]|].
    destruct (stringValue modelUrl) as [url|];
      [|do 2 eexists; split; [reflexivity | split; reflexivity]].
    destruct (JSStr.endsWith url ".pb");
      do 2 eexists; (split; [reflexivity | split; reflexivity]). }
  split.
  - intros o. exact (Hall (OptionsObject o)).
  - intros options [-> | ->].
    + exact (Hall OptionsUndefined).
    + exact (Hall OptionsNull).
Qed.

(** X3.  With [fromTFHub] falsy, every locator other than a string ending
    in [.pb] (primitive or String object) goes to the JSON loader
    unchanged, with the caller's [requestInit] and [onProgress]: a plain
    load handler object, and a string ending in [.json], too. *)
Theorem loadGraphModel_json_unless_pb
    (modelUrl : JSValue) (log : list Event) :
  looseEqNull modelUrl = false ->
  (forall url, stringValue modelUrl = Some url -> ~ ends_in ".pb" url) ->
  (forall o : LoadOptions,
      truthy (fromTFHub o) = false ->
      loadGraphModel modelUrl (OptionsObject o) log =
      (Returned (loadFrozenModelJSON modelUrl (requestInit o) (onProgress o)),
       (log ++ [CallFrozenModelJSON modelUrl (requestInit o) (onProgress o)])%list)) /\
  (forall options : OptionsArg,
      options = OptionsUndefined \/ options = OptionsNull ->
      loadGraphModel modelUrl options log =
      (Returned (loadFrozenModelJSON modelUrl JSUndefined JSUndefined),
       (log ++ [CallFrozenModelJSON modelUrl JSUndefined JSUndefined])%list)).
Proof.
  intros Hnn Hpb.
  assert (Hall : forall options,
             truthy (fromTFHub (orEmpty options)) = false ->
             loadGraphModel modelUrl options log =
             (Returned (loadFrozenModelJSON modelUrl
                          (requestInit (orEmpty options))
                          (onProgress (orEmpty options))),
              (log ++ [CallFrozenModelJSON modelUrl
                         (requestInit (orEmpty options))
                         (onProgress (orEmpty options))])%list)).
  { intros options Hhub.
    rewrite loadGraphModel_table by assumption. cbv zeta. rewrite Hhub.
    destruct (stringValue modelUrl) as [url|]; [|reflexivity].
    specialize (Hpb url eq_refl). apply endsWith_false_iff in Hpb.
    now rewrite Hpb. }
  split.
  - intros o Hhub. exact (Hall (OptionsObject o) Hhub).
  - intros options [-> | ->].
    + exact (Hall OptionsUndefined eq_refl).
    + exact (Hall OptionsNull eq_refl).
Qed.

(** X4.  A manifest URL passed to [loadFrozenModel] is used as it is: for
    a string locator not ending in [.json] and a [weightsManifestUrl] that
    is neither [null] nor [undefined], the binary loader is called with
    that very URL. *)
Theorem loadFrozenModel_explicit_manifest
    (S : string) (weightsManifestUrl requestOption onProgress : JSValue)
    (log : list Event) :
  ~ ends_in ".json" S ->
  looseEqNull weightsManifestUrl = false ->
  loadFrozenModel (JSString S) weightsManifestUrl requestOption onProgress log =
  (Returned (loadFrozenModelPB (JSString S) weightsManifestUrl
               requestOption onProgress),
   (log ++ [DeprecationWarn deprecation_message;
            CallFrozenModelPB (JSString S) weightsManifestUrl
              requestOption onProgress])%list).
Proof.
  intros Hjson Hw. apply endsWith_false_iff in Hjson.
  rewrite loadFrozenModel_table, Hjson. cbv zeta. now rewrite Hw.
Qed.

(** X5.  On a locator that is a string, [null] or [undefined],
    [loadFrozenModel] never throws: after the deprecation notice it makes
    exactly one backend call, with the locator, [requestOption] and
    [onProgress] as given, and that call is never to the TF-Hub loader. *)
Theorem loadFrozenModel_one_backend_call
    (modelUrl weightsManifestUrl requestOption onProgress : JSValue)
    (log : list Event) :
  isString modelUrl = true \/ looseEqNull modelUrl = true ->
  exists (p : Promise) (e : Event),
    loadFrozenModel modelUrl weightsManifestUrl requestOption onProgress log =
    (Returned p, (log ++ [DeprecationWarn deprecation_message; e])%list) /\
    callLocator e = Some modelUrl /\
    callTransport e = Some (requestOption, onProgress) /\
    isTfHubCall e = false.
Proof.
  intros H.
  destruct modelUrl as [| |b|url|url|r];
    try (destruct H as [H|H]; discriminate H).
  - do 2 eexists. split.
    + cbv [loadFrozenModel deprecationWarn bind emit ret truthy looseEqNull
           negb andb].
      rewrite <- List.app_assoc. reflexivity.
    + repeat split.
  - do 2 eexists. split.
    + cbv [loadFrozenModel deprecationWarn bind emit ret truthy looseEqNull
           negb andb].
      rewrite <- List.app_assoc. reflexivity.
    + repeat split.
  - rewrite loadFrozenModel_table.
    destruct (JSStr.endsWith url ".json");
      do 2 eexists; (split; [reflexivity | repeat split]).
  - rewrite loadFrozenModel_table_object.
    destruct (JSStr.endsWith url ".json");
      do 2 eexists; (split; [reflexivity | repeat split]).
Qed.

(** X6.  [loadFrozenModel] takes no load handler: on a truthy locator that
    [util.isString] does not accept (a plain object such as an
    [io.IOHandler], or [true]; not a String object) the call of [endsWith]
    throws a [TypeError] after the deprecation notice, and no backend is
    called.  A String object is served like a primitive string. *)
Theorem loadFrozenModel_rejects_non_string
    (modelUrl weightsManifestUrl requestOption onProgress : JSValue)
    (log : list Event) :
  truthy modelUrl = true ->
  isString modelUrl = false ->
  loadFrozenModel modelUrl weightsManifestUrl requestOption onProgress log =
  (Thrown TypeError, (log ++ [DeprecationWarn deprecation_message])%list) /\
  forall S : string,
    ends_in ".json" S ->
    loadFrozenModel (JSStringObject S) weightsManifestUrl requestOption onProgress log =
    (Returned (loadFrozenModelJSON (JSStringObject S) requestOption onProgress),
     (log ++ [DeprecationWarn deprecation_message;
              CallFrozenModelJSON (JSStringObject S) requestOption onProgress])%list).
Proof.
  intros Ht Hs. split.
  - destruct modelUrl as [| |b|url|url|r]; try discriminate.
    + simpl in Ht; subst b. reflexivity.
    + reflexivity.
  - intros S Hjson. apply endsWith_iff in Hjson.
    now rewrite loadFrozenModel_table_object, Hjson.
Qed.

(** X7.  On a string ending in [.json], and on a string ending in [.pb]
    when no manifest URL is passed, the legacy entry point does what the
    current one does with the same [requestInit] and [onProgress] and
    [fromTFHub] falsy: same backend, same arguments, same promise.  The
    deprecation notice is the only difference. *)
Theorem loadFrozenModel_agrees_with_loadGraphModel
    (S : string) (weightsManifestUrl : JSValue) (o : LoadOptions)
    (log : list Event) :
  ends_in ".json" S \/ (ends_in ".pb" S /\ looseEqNull weightsManifestUrl = true) ->
  truthy (fromTFHub o) = false ->
  loadFrozenModel (JSString S) weightsManifestUrl (requestInit o) (onProgress o) log =
  loadGraphModel (JSString S) (OptionsObject o)
    (log ++ [DeprecationWarn deprecation_message])%list.
Proof.
  intros H Hhub.
  rewrite loadFrozenModel_table, loadGraphModel_table by reflexivity.
  cbv zeta. cbn [orEmpty stringValue]. rewrite Hhub.
  destruct H as [Hjson | [Hpb Hw]].
  - rewrite (json_not_pb S Hjson). apply endsWith_iff in Hjson.
    now rewrite Hjson, <- List.app_assoc.
  - rewrite (pb_not_json S Hpb), Hw. apply endsWith_iff in Hpb.
    now rewrite Hpb, <- List.app_assoc.
Qed.

(** X10.  For a string locator not ending in [.json] the binary loader is
    called and never receives a missing manifest: the manifest argument is
    neither [null] nor [undefined]; it is the caller's URL when the caller
    passed one, and the URL [getWeightsManifestUrl] returns for the
    locator when the caller's was [null] or [undefined]. *)
Theorem loadFrozenModel_manifest_never_missing
    (S : string) (weightsManifestUrl requestOption onProgress : JSValue)
    (log : list Event) :
  ~ ends_in ".json" S ->
  exists m : JSValue,
    loadFrozenModel (JSString S) weightsManifestUrl requestOption onProgress log =
    (Returned (loadFrozenModelPB (JSString S) m requestOption onProgress),
     (log ++ [DeprecationWarn deprecation_message;
              CallFrozenModelPB (JSString S) m requestOption onProgress])%list) /\
    looseEqNull m = false /\
    (looseEqNull weightsManifestUrl = false -> m = weightsManifestUrl) /\
    (looseEqNull weightsManifestUrl = true ->
     m = JSString (dirname S ++ "/" ++ DEFAULT_MANIFEST_NAME) /\
     forall log', getWeightsManifestUrl (JSString S) log' = (Returned m, log')).
Proof.
  intros Hjson. apply endsWith_false_iff in Hjson.
  rewrite loadFrozenModel_table, Hjson. cbv zeta.
  destruct (looseEqNull weightsManifestUrl) eqn:Hw.
  - eexists. split; [reflexivity|]. split; [reflexivity|]. split.
    + discriminate.
    + intros _. split; [reflexivity|].
      intros log'. apply getWeightsManifestUrl_string.
  - exists weightsManifestUrl. split; [reflexivity|]. split; [exact Hw|].
    split; [reflexivity | discriminate].
Qed.

(** X11.  Whatever its arguments are, [loadFrozenModel] first emits the
    deprecation notice, once, and after it at most one more event, which
    is not a second notice: this holds when the call throws, too. *)
Theorem loadFrozenModel_warns_first
    (modelUrl weightsManifestUrl requestOption onProgress : JSValue)
    (log : list Event) :
  exists rest : list Event,
    snd (loadFrozenModel modelUrl weightsManifestUrl requestOption onProgress log) =
    (log ++ DeprecationWarn deprecation_message :: rest)%list /\
    (List.length rest <= 1)%nat /\
    forallb (fun e => negb (isDeprecationWarn e)) rest = true.
Proof.
  destruct modelUrl as [| |b|url|url|r].
  - eexists. split.
    + cbv [loadFrozenModel deprecationWarn bind emit ret truthy looseEqNull
           negb andb snd].
      rewrite <- List.app_assoc. reflexivity.
    + split; [simpl; lia | reflexivity].
  - eexists. split.
    + cbv [loadFrozenModel deprecationWarn bind emit ret truthy looseEqNull
           negb andb snd].
      rewrite <- List.app_assoc. reflexivity.
    + split; [simpl; lia | reflexivity].
  - destruct b.
    + exists []. repeat split. simpl; lia.
    + destruct (looseEqNull weightsManifestUrl) eqn:Hw.
      * exists []. split; [|split; [simpl; lia | reflexivity]].
        cbv [loadFrozenModel deprecationWarn bind emit ret truthy].
        change (looseEqNull (JSBool false)) with false. now rewrite Hw.
      * eexists. split.
        -- cbv [loadFrozenModel deprecationWarn bind emit ret truthy].
           change (looseEqNull (JSBool false)) with false. rewrite Hw.
           cbv [negb andb snd]. rewrite <- List.app_assoc. reflexivity.
        -- split; [simpl; lia | reflexivity].
  - rewrite loadFrozenModel_table.
    destruct (JSStr.endsWith url ".json");
      eexists; (split; [reflexivity | split; [simpl; lia | reflexivity]]).
  - rewrite loadFrozenModel_table_object.
    destruct (JSStr.endsWith url ".json");
      eexists; (split; [reflexivity | split; [simpl; lia | reflexivity]]).
  - exists []. repeat split. simpl; lia.
Qed.

(** X12.  On a string ending neither in [.json] nor in [.pb] the two
    entry points part: the legacy one calls the binary loader, the current
    one (with [fromTFHub] falsy) the JSON loader. *)
Theorem entry_points_differ
    (S : string) (weightsManifestUrl : JSValue) (o : LoadOptions)
    (log : list Event) :
  ~ ends_in ".json" S ->
  ~ ends_in ".pb" S ->
  truthy (fromTFHub o) = false ->
  (exists manifest : JSValue,
      snd (loadFrozenModel (JSString S) weightsManifestUrl
             (requestInit o) (onProgress o) log) =
      (log ++ [DeprecationWarn deprecation_message;
               CallFrozenModelPB (JSString S) manifest
                 (requestInit o) (onProgress o)])%list) /\
  snd (loadGraphModel (JSString S) (OptionsObject o) log) =
  (log ++ [CallFrozenModelJSON (JSString S) (requestInit o) (onProgress o)])%list.
Proof.
  intros Hjson Hpb Hhub.
  apply endsWith_false_iff in Hjson. apply endsWith_false_iff in Hpb.
  rewrite loadFrozenModel_table, loadGraphModel_table by reflexivity.
  cbv zeta. cbn [orEmpty stringValue]. rewrite Hjson, Hpb, Hhub.
  split; [eexists|]; reflexivity.
Qed.

End RouterCoverage.

(** ** Instances of the further properties *)

Lemma loadGraphModel_one_backend_call_witness :
  let o := {| fromTFHub := JSUndefined;
              requestInit := JSObject 1;
              onProgress := JSObject 2 |} in
  looseEqNull (JSObject 7) = false /\
  (exists (p : Event) (e : Event),
      loadGraphModel (B := recordingBackends) (JSObject 7) (OptionsObject o) [] =
      (Returned p, [e]) /\
      callLocator e = Some (JSObject 7) /\
      callTransport e = Some (JSObject 1, JSObject 2)) /\
  (exists (p : Event) (e : Event),
      loadGraphModel (B := recordingBackends) (JSObject 7) OptionsNull [] =
      (Returned p, [e]) /\
      callLocator e = Some (JSObject 7) /\
      callTransport e = Some (JSUndefined, JSUndefined)).
Proof.
  cbv zeta. split; [reflexivity|]. split.
  - exact (proj1 (loadGraphModel_one_backend_call (B := recordingBackends)
                    (JSObject 7) [] eq_refl)
             {| fromTFHub := JSUndefined;
                requestInit := JSObject 1;
                onProgress := JSObject 2 |}).
  - exact (proj2 (loadGraphModel_one_backend_call (B := recordingBackends)
                    (JSObject 7) [] eq_refl)
             OptionsNull (or_intror eq_refl)).
Defined.

Lemma loadGraphModel_json_unless_pb_witness :
  let handler := JSObject 7 in
  let o := {| fromTFHub := JSBool false;
              requestInit := JSObject 1;
              onProgress := JSObject 2 |} in
  looseEqNull handler = false /\
  (forall url, stringValue handler = Some url -> ~ ends_in ".pb" url) /\
  truthy (fromTFHub o) = false /\
  loadGraphModel (B := recordingBackends) handler (OptionsObject o) [] =
  (Returned (CallFrozenModelJSON handler (JSObject 1) (JSObject 2)),
   [CallFrozenModelJSON handler (JSObject 1) (JSObject 2)]).
Proof.
  cbv zeta.
  assert (H : forall url, stringValue (JSObject 7) = Some url -> ~ ends_in ".pb" url)
    by (intros url Hurl; discriminate Hurl).
  split; [reflexivity|]. split; [exact H|]. split; [reflexivity|].
  exact (proj1 (loadGraphModel_json_unless_pb (B := recordingBackends)
                  (JSObject 7) [] eq_refl H)
           {| fromTFHub := JSBool false;
              requestInit := JSObject 1;
              onProgress := JSObject 2 |} eq_refl).
Defined.

Lemma loadFrozenModel_explicit_manifest_witness :
  let S := "https://host/dir/model.pb" in
  let given := JSString "https://cdn/other/manifest.json" in
  ~ ends_in ".json" S /\
  looseEqNull given = false /\
  loadFrozenModel (B := recordingBackends) (JSString S) given
    JSUndefined JSUndefined [] =
  (Returned (CallFrozenModelPB (JSString S) given JSUndefined JSUndefined),
   [DeprecationWarn deprecation_message;
    CallFrozenModelPB (JSString S) given JSUndefined JSUndefined]).
Proof.
  cbv zeta.
  assert (Hjson : ~ ends_in ".json" "https://host/dir/model.pb")
    by (apply endsWith_false_iff; reflexivity).
  split; [exact Hjson|]. split; [reflexivity|].
  exact (loadFrozenModel_explicit_manifest (B := recordingBackends)
           "https://host/dir/model.pb"
           (JSString "https://cdn/other/manifest.json")
           JSUndefined JSUndefined [] Hjson eq_refl).
Defined.

Lemma loadFrozenModel_one_backend_call_witness :
  (isString JSUndefined = true \/ looseEqNull JSUndefined = true) /\
  exists (p : Event) (e : Event),
    loadFrozenModel (B := recordingBackends) JSUndefined JSUndefined
      (JSObject 1) (JSObject 2) [] =
    (Returned p, [DeprecationWarn deprecation_message; e]) /\
    callLocator e = Some JSUndefined /\
    callTransport e = Some (JSObject 1, JSObject 2) /\
    isTfHubCall e = false.
Proof.
  split; [right; reflexivity|].
  exact (loadFrozenModel_one_backend_call (B := recordingBackends)
           JSUndefined JSUndefined (JSObject 1) (JSObject 2) []
           (or_intror eq_refl)).
Defined.

Lemma loadFrozenModel_rejects_non_string_witness :
  truthy (JSObject 7) = true /\
  isString (JSObject 7) = false /\
  loadFrozenModel (B := recordingBackends) (JSObject 7) JSUndefined
    JSUndefined JSUndefined [] =
  (Thrown TypeError, [DeprecationWarn deprecation_message]) /\
  ends_in ".json" "model.json" /\
  loadFrozenModel (B := recordingBackends) (JSStringObject "model.json")
    JSUndefined JSUndefined JSUndefined [] =
  (Returned (CallFrozenModelJSON (JSStringObject "model.json")
               JSUndefined JSUndefined),
   [DeprecationWarn deprecation_message;
    CallFrozenModelJSON (JSStringObject "model.json") JSUndefined JSUndefined]).
Proof.
  assert (Hjson : ends_in ".json" "model.json") by (exists "model"; reflexivity).
  split; [reflexivity|]. split; [reflexivity|]. split.
  - exact (proj1 (loadFrozenModel_rejects_non_string (B := recordingBackends)
                    (JSObject 7) JSUndefined JSUndefined JSUndefined []
                    eq_refl eq_refl)).
  - split; [exact Hjson|].
    exact (proj2 (loadFrozenModel_rejects_non_string (B := recordingBackends)
                    (JSObject 7) JSUndefined JSUndefined JSUndefined []
                    eq_refl eq_refl) "model.json" Hjson).
Defined.

Lemma loadFrozenModel_agrees_with_loadGraphModel_witness :
  let S := "https://host/dir/model.pb" in
  let o := {| fromTFHub := JSBool false;
              requestInit := JSObject 1;
              onProgress := JSObject 2 |} in
  (ends_in ".json" S \/ (ends_in ".pb" S /\ looseEqNull JSUndefined = true)) /\
  truthy (fromTFHub o) = false /\
  loadFrozenModel (B := recordingBackends) (JSString S) JSUndefined
    (JSObject 1) (JSObject 2) [] =
  loadGraphModel (B := recordingBackends) (JSString S) (OptionsObject o)
    [DeprecationWarn deprecation_message].
Proof.
  cbv zeta.
  assert (H : ends_in ".json" "https://host/dir/model.pb" \/
              (ends_in ".pb" "https://host/dir/model.pb" /\
               looseEqNull JSUndefined = true))
    by (right; split; [exists "https://host/dir/model"|]; reflexivity).
  split; [exact H|]. split; [reflexivity|].
  exact (loadFrozenModel_agrees_with_loadGraphModel (B := recordingBackends)
           "https://host/dir/model.pb" JSUndefined
           {| fromTFHub := JSBool false;
              requestInit := JSObject 1;
              onProgress := JSObject 2 |} [] H eq_refl).
Defined.

Lemma loadFrozenModel_manifest_never_missing_witness :
  let given := JSString "https://cdn/other/manifest.json" in
  ~ ends_in ".json" "model.pb" /\
  looseEqNull given = false /\
  exists m : JSValue,
    loadFrozenModel (B := recordingBackends) (JSString "model.pb") given
      JSUndefined JSUndefined [] =
    (Returned (CallFrozenModelPB (JSString "model.pb") m JSUndefined JSUndefined),
     [DeprecationWarn deprecation_message;
      CallFrozenModelPB (JSString "model.pb") m JSUndefined JSUndefined]) /\
    looseEqNull m = false /\
    m = given.
Proof.
  cbv zeta.
  assert (Hjson : ~ ends_in ".json" "model.pb")
    by (apply endsWith_false_iff; reflexivity).
  split; [exact Hjson|]. split; [reflexivity|].
  destruct (loadFrozenModel_manifest_never_missing (B := recordingBackends)
              "model.pb" (JSString "https://cdn/other/manifest.json")
              JSUndefined JSUndefined [] Hjson)
    as (m & Hcall & Hm & Hgiven & _).
  exists m. split; [exact Hcall|]. split; [exact Hm|].
  exact (Hgiven eq_refl).
Defined.

Lemma entry_points_differ_witness :
  let S := "https://host/dir/model" in
  ~ ends_in ".json" S /\
  ~ ends_in ".pb" S /\
  truthy (fromTFHub emptyOptions) = false /\
  (exists manifest : JSValue,
      snd (loadFrozenModel (B := recordingBackends) (JSString S) JSUndefined
             JSUndefined JSUndefined []) =
      [DeprecationWarn deprecation_message;
       CallFrozenModelPB (JSString S) manifest JSUndefined JSUndefined]) /\
  snd (loadGraphModel (B := recordingBackends) (JSString S)
         (OptionsObject emptyOptions) []) =
  [CallFrozenModelJSON (JSString S) JSUndefined JSUndefined].
Proof.
  cbv zeta.
  assert (Hjson : ~ ends_in ".json" "https://host/dir/model")
    by (apply endsWith_false_iff; reflexivity).
  assert (Hpb : ~ ends_in ".pb" "https://host/dir/model")
    by (apply endsWith_false_iff; reflexivity).
  split; [exact Hjson|]. split; [exact Hpb|]. split; [reflexivity|].
  exact (entry_points_differ (B := recordingBackends)
           "https://host/dir/model" JSUndefined emptyOptions []
           Hjson Hpb eq_refl).
Defined.
